(** * kiln / extras / inscription_hash.py

    A shallow embedding of [get_inscription_hash] together with the two
    library calls it is built on: [hashlib.sha256(..).hexdigest()] and
    [requests.get(url, timeout=30)].

    - [hashlib.sha256] is embedded as an executable SHA-256 (FIPS 180-4)
      over 32-bit words carried in [Z] with the wrap-around written out.
    - The network and the response objects are the environment: an oracle
      answers every GET with the time it blocked and either a raised
      exception or a response object. The timeout given to a GET limits
      the connect and each read, not the whole response, so the time a
      GET blocks is whatever the oracle says. A response as
      [requests.get] builds it has its body as bytes and its headers as a
      mapping; the record also admits stand-in objects whose attribute
      reads raise or give [None].
    - [print] always succeeds and appends its line to the captured
      standard output; the program state also records every request
      issued and the time spent blocked in the network.
    - An exception is caught by [except Exception] when its class derives
      from [Exception]; [KeyboardInterrupt] and the like pass through. *)

From Stdlib Require Import ZArith List String Ascii Bool Lia.
From Stdlib Require Import Init.Byte DecimalString.
Import ListNotations.

Local Open Scope list_scope.
Local Open Scope Z_scope.

(** ** hashlib.sha256 *)

Module SHA256.

Definition wrap (x : Z) : Z := x mod 4294967296.

Definition add32 (x y : Z) : Z := wrap (x + y).

Definition rotr (n x : Z) : Z :=
  wrap (Z.lor (Z.shiftr x n) (Z.shiftl x (32 - n))).

Definition shr (n x : Z) : Z := Z.shiftr x n.

Definition not32 (x : Z) : Z := Z.lxor x 4294967295.

Definition Ch (x y z : Z) : Z :=
  Z.lxor (Z.land x y) (Z.land (not32 x) z).

Definition Maj (x y z : Z) : Z :=
  Z.lxor (Z.lxor (Z.land x y) (Z.land x z)) (Z.land y z).

Definition Sigma0 (x : Z) : Z :=
  Z.lxor (Z.lxor (rotr 2 x) (rotr 13 x)) (rotr 22 x).

Definition Sigma1 (x : Z) : Z :=
  Z.lxor (Z.lxor (rotr 6 x) (rotr 11 x)) (rotr 25 x).

Definition sigma0 (x : Z) : Z :=
  Z.lxor (Z.lxor (rotr 7 x) (rotr 18 x)) (shr 3 x).

Definition sigma1 (x : Z) : Z :=
  Z.lxor (Z.lxor (rotr 17 x) (rotr 19 x)) (shr 10 x).

(** Round constants: the first 32 bits of the fractional parts of the cube
    roots of the first 64 primes. *)
Definition K : list Z :=
  [ 1116352408; 1899447441; 3049323471; 3921009573; 961987163; 1508970993;
    2453635748; 2870763221; 3624381080; 310598401; 607225278; 1426881987;
    1925078388; 2162078206; 2614888103; 3248222580; 3835390401; 4022224774;
    264347078; 604807628; 770255983; 1249150122; 1555081692; 1996064986;
    2554220882; 2821834349; 2952996808; 3210313671; 3336571891; 3584528711;
    113926993; 338241895; 666307205; 773529912; 1294757372; 1396182291;
    1695183700; 1986661051; 2177026350; 2456956037; 2730485921; 2820302411;
    3259730800; 3345764771; 3516065817; 3600352804; 4094571909; 275423344;
    430227734; 506948616; 659060556; 883997877; 958139571; 1322822218;
    1537002063; 1747873779; 1955562222; 2024104815; 2227730452; 2361852424;
    2428436474; 2756734187; 3204031479; 3329325298 ].

(** The eight working words. *)
Record regs := Regs {
  ra : Z; rb : Z; rc : Z; rd : Z; re : Z; rf : Z; rg : Z; rh : Z
}.

(** Initial hash value: square roots of the first eight primes. *)
Definition H0 : regs :=
  Regs 1779033703 3144134277 1013904242 2773480762
       1359893119 2600822924 528734635 1541459225.

(** Padding: a single 1 bit, zeros up to 56 mod 64, then the bit length as
    a 64-bit big-endian integer. *)
Definition be_bytes (n : nat) (x : Z) : list Z :=
  map (fun i => (x / 2 ^ (8 * Z.of_nat i)) mod 256) (rev (seq 0 n)).

Definition pad (msg : list Z) : list Z :=
  let len := Z.of_nat (List.length msg) in
  msg ++ [128] ++ repeat 0 (Z.to_nat ((55 - len) mod 64))
      ++ be_bytes 8 ((8 * len) mod 2 ^ 64).

Fixpoint words (bs : list Z) : list Z :=
  match bs with
  | b3 :: b2 :: b1 :: b0 :: rest =>
      (b3 * 16777216 + b2 * 65536 + b1 * 256 + b0) :: words rest
  | _ => []
  end.

(** Message schedule: sixteen block words extended to sixty-four. *)
Fixpoint extend (n : nat) (w : list Z) : list Z :=
  match n with
  | O => w
  | S n' =>
      let t := List.length w in
      let at_ (k : nat) := nth (t - k) w 0 in
      extend n' (w ++ [add32 (add32 (sigma1 (at_ 2%nat)) (at_ 7%nat))
                             (add32 (sigma0 (at_ 15%nat)) (at_ 16%nat))])
  end.

Definition schedule (block : list Z) : list Z := extend 48 block.

Definition round (s : regs) (kw : Z * Z) : regs :=
  let t1 := add32 (add32 (add32 (rh s) (Sigma1 (re s)))
                         (add32 (Ch (re s) (rf s) (rg s)) (fst kw)))
                  (snd kw) in
  let t2 := add32 (Sigma0 (ra s)) (Maj (ra s) (rb s) (rc s)) in
  Regs (add32 t1 t2) (ra s) (rb s) (rc s)
       (add32 (rd s) t1) (re s) (rf s) (rg s).

Definition compress (h : regs) (block : list Z) : regs :=
  let s := fold_left round (combine K (schedule block)) h in
  Regs (add32 (ra h) (ra s)) (add32 (rb h) (rb s))
       (add32 (rc h) (rc s)) (add32 (rd h) (rd s))
       (add32 (re h) (re s)) (add32 (rf h) (rf s))
       (add32 (rg h) (rg s)) (add32 (rh h) (rh s)).

Fixpoint blocks (n : nat) (ws : list Z) (h : regs) : regs :=
  match n with
  | O => h
  | S n' => blocks n' (skipn 16 ws) (compress h (firstn 16 ws))
  end.

Definition byte_of_Z (z : Z) : byte :=
  match Byte.of_N (Z.to_N (z mod 256)) with
  | Some b => b
  | None => x00
  end.

Definition Z_of_byte (b : byte) : Z := Z.of_N (Byte.to_N b).

Definition regs_words (h : regs) : list Z :=
  [ra h; rb h; rc h; rd h; re h; rf h; rg h; rh h].

(** [hashlib.sha256(data).digest()] *)
Definition digest (data : list byte) : list byte :=
  let ws := words (pad (map Z_of_byte data)) in
  let h := blocks (List.length ws / 16) ws H0 in
  map byte_of_Z (flat_map (be_bytes 4) (regs_words h)).

Definition hexdigits : list ascii :=
  list_ascii_of_string "0123456789abcdef".

Definition hexdigit (n : Z) : ascii := nth (Z.to_nat n) hexdigits "0"%char.

Fixpoint hex (bs : list byte) : string :=
  match bs with
  | [] => EmptyString
  | b :: rest =>
      String (hexdigit (Z_of_byte b / 16))
        (String (hexdigit (Z_of_byte b mod 16)) (hex rest))
  end.

(** [hashlib.sha256(data).hexdigest()] *)
Definition hexdigest (data : list byte) : string := hex (digest data).

End SHA256.

(** ** Python values, exceptions and the environment *)

(** Exception classes that matter to the function: what [requests] raises,
    what reading and hashing a body can raise, and the classes that derive
    from [BaseException] only. *)
Inductive exc_class :=
| ConnectionError | Timeout | SSLError | ChunkedEncodingError
| ContentDecodingError | TooManyRedirects | InvalidURL
| TypeError | RuntimeError | AttributeError | OSError
| KeyboardInterrupt | SystemExit | GeneratorExit.

(** [issubclass(c, Exception)] *)
Definition issubclass_Exception (c : exc_class) : bool :=
  match c with
  | KeyboardInterrupt | SystemExit | GeneratorExit => false
  | _ => true
  end.

(** An exception instance: its class and [str(e)]. *)
Record exn := Exn { exc_type : exc_class; exc_str : string }.

Definition isinstance_Exception (e : exn) : bool :=
  issubclass_Exception (exc_type e).

Inductive result (A : Type) :=
| Ok (a : A)
| Raise (e : exn).
Arguments Ok {A} a.
Arguments Raise {A} e.

(** The object [requests.get] returns. [status_code] is an int. On a
    response built by the library, [content] is [Ok (Some bytes)] (the
    body has been read inside the call) and [headers] is [Ok mapping].
    The other values are those of a stand-in object put in its place:
    a read that raises, or a [content] that is [None]. *)
Record Response := {
  status_code : Z;
  content : result (option (list byte));
  headers : result (list (string * string))
}.

(** The network: a GET of [url] with [timeout] blocks for some time and
    then either raises or returns a response. The time is not tied to
    the timeout: a server that keeps sending, each read within the
    timeout, holds the call for as long as it likes. *)
Definition Network := string -> Z -> Z * result Response.

(** What a call leaves behind: the lines printed, the requests issued (url
    and timeout, oldest first) and the time spent blocked in GETs. *)
Record State := {
  stdout : list string;
  requests : list (string * Z);
  blocked : Z
}.

(** ** The interpreter monad: state that survives a raise *)

Definition Py (A : Type) : Type := State -> result A * State.

Definition ret {A} (a : A) : Py A := fun s => (Ok a, s).

Definition raise {A} (e : exn) : Py A := fun s => (Raise e, s).

Definition bind {A B} (m : Py A) (k : A -> Py B) : Py B :=
  fun s =>
    match m s with
    | (Ok a, s') => k a s'
    | (Raise e, s') => (Raise e, s')
    end.

Notation "x <- m ;; k" := (bind m (fun x => k))
  (at level 61, m at next level, right associativity).
Notation "m ;; k" := (bind m (fun _ => k))
  (at level 61, right associativity).

(** [try: body  except Exception as e: handler] *)
Definition try_except_Exception {A} (body : Py A) (handler : exn -> Py A)
  : Py A :=
  fun s =>
    match body s with
    | (Ok a, s') => (Ok a, s')
    | (Raise e, s') =>
        if isinstance_Exception e then handler e s' else (Raise e, s')
    end.

(** Evaluating an attribute of an environment object. *)
Definition attr {A} (r : result A) : Py A := fun s => (r, s).

(** The state once [line] has been written to the standard output. *)
Definition say (line : string) (s : State) : State :=
  {| stdout := stdout s ++ [line];
     requests := requests s;
     blocked := blocked s |}.

Definition print (line : string) : Py unit := fun s => (Ok tt, say line s).

Local Open Scope string_scope.

Definition nl : string := String "010"%char EmptyString.

(** [str(n)] for an int. *)
Definition str_int (n : Z) : string := NilZero.string_of_int (Z.to_int n).

Definition lower_char (c : ascii) : ascii :=
  let n := nat_of_ascii c in
  if ((65 <=? n) && (n <=? 90))%nat then ascii_of_nat (n + 32) else c.

Fixpoint lower (s : string) : string :=
  match s with
  | EmptyString => EmptyString
  | String c s' => String (lower_char c) (lower s')
  end.

(** [headers.get(key, default)] on a case-insensitive mapping. *)
Definition headers_get (hs : list (string * string)) (key default : string)
  : string :=
  match find (fun kv => String.eqb (lower (fst kv)) (lower key)) hs with
  | Some kv => snd kv
  | None => default
  end.

(** [hashlib.sha256(content).hexdigest()]: only bytes can be hashed. *)
Definition hashlib_sha256_hexdigest (content : option (list byte))
  : Py string :=
  match content with
  | Some b => ret (SHA256.hexdigest b)
  | None =>
      raise (Exn TypeError "object supporting the buffer API required")
  end.

(** [len(content)] *)
Definition len (content : option (list byte)) : Py Z :=
  match content with
  | Some b => ret (Z.of_nat (List.length b))
  | None => raise (Exn TypeError "object of type 'NoneType' has no len()")
  end.

(** ** get_inscription_hash *)

Inductive flow :=
| Next
| Return (v : string).

Definition endpoints (inscription_id : string) : list string :=
  [ ("https://ordinals.com/content/" ++ inscription_id)%string;
    ("https://ord.io/content/" ++ inscription_id)%string;
    ("https://ordiscan.com/content/" ++ inscription_id)%string ]%list.

Section Program.

Variable net : Network.

(** The state once the GET of [url] has come back: the request is on
    record and the time it blocked is added. *)
Definition sent (url : string) (timeout : Z) (s : State) : State :=
  {| stdout := stdout s;
     requests := (requests s ++ [(url, timeout)])%list;
     blocked := blocked s + fst (net url timeout) |}.

(** [requests.get(url, timeout=timeout)] *)
Definition requests_get (url : string) (timeout : Z) : Py Response :=
  fun s => (snd (net url timeout), sent url timeout s).

(** The success branch, lines 27-38. *)
Definition on_success (response : Response) : Py flow :=
  content <- attr (content response) ;;
  hash_value <- hashlib_sha256_hexdigest content ;;
  print (nl ++ "Success!") ;;
  n <- len content ;;
  print ("Content length: " ++ str_int n ++ " bytes") ;;
  hs <- attr (headers response) ;;
  print ("Content type: " ++ headers_get hs "content-type" "unknown") ;;
  print ("SHA-256 Hash: " ++ hash_value) ;;
  ret (Return hash_value).

(** One pass through the loop body, lines 22-44. *)
Definition attempt (url : string) : Py flow :=
  try_except_Exception
    (print ("Trying: " ++ url) ;;
     response <- requests_get url 30 ;;
     if (status_code response =? 200)%Z then on_success response
     else
       print ("  Status code: " ++ str_int (status_code response)) ;;
       ret Next)
    (fun e => print ("  Error: " ++ exc_str e) ;; ret Next).

(** [for url in endpoints: ...], lines 21-44; [None] when the loop runs
    off its end. *)
Fixpoint for_url_in (urls : list string) : Py (option string) :=
  match urls with
  | nil => ret None
  | (url :: rest)%list =>
      f <- attempt url ;;
      match f with
      | Return hash_value => ret (Some hash_value)
      | Next => for_url_in rest
      end
  end.

Definition get_inscription_hash (inscription_id : string)
  : Py (option string) :=
  r <- for_url_in (endpoints inscription_id) ;;
  match r with
  | Some hash_value => ret (Some hash_value)
  | None =>
      print (nl ++ "Failed to retrieve content from all endpoints.") ;;
      ret None
  end.

End Program.

Definition initial : State :=
  {| stdout := nil; requests := nil; blocked := 0 |}.


(** ** Vocabulary of the statements *)

(** The state once an attempt has announced [url] and its GET is back. *)
Definition tried (net : Network) (url : string) (s : State) : State :=
  sent net url 30 (say ("Trying: " ++ url) s).

(** The requests a run over [urls] puts on record. *)
Definition issued (urls : list string) : list (string * Z) :=
  map (fun url => (url, 30)) urls.

(** The exception the success branch raises on [response], if any. *)
Definition success_branch_raises (response : Response) : option exn :=
  match fst (on_success response initial) with
  | Raise e => Some e
  | Ok _ => None
  end.

(** The attempt on [url] ends in a raised error or in a non-200 status. *)
Definition attempt_fails (net : Network) (url : string) : bool :=
  match snd (net url 30) with
  | Raise e => isinstance_Exception e
  | Ok r =>
      negb (status_code r =? 200)%Z
      || match success_branch_raises r with
         | Some e => isinstance_Exception e
         | None => false
         end
  end.

Definition is_lower_hex (c : ascii) : bool :=
  let n := nat_of_ascii c in
  ((48 <=? n) && (n <=? 57) || (97 <=? n) && (n <=? 102))%nat.


(** Time spent blocked in the GETs of [urls]. *)
Definition waits (net : Network) (urls : list string) : Z :=
  fold_right (fun url acc => fst (net url 30) + acc) 0 urls.

(** ** Sample environments *)

(** Lines 49-52: the id the script is run on, and its call. *)
Definition inscription_id : string :=
  "87e11177b0e184cd7ef0f076fc4de5ddacf509b71d2b1937a01b351965567998i0".

Definition hash_result (net : Network) : result (option string) * State :=
  get_inscription_hash net inscription_id initial.

Definition text_response : Response :=
  {| status_code := 200;
     content := Ok (Some (list_byte_of_string "abc"));
     headers := Ok [("Content-Type", "text/plain")]%list |}.

Definition image_response : Response :=
  {| status_code := 200;
     content := Ok (Some [xff; xfe; x00; x80; xc3; x28]%list);
     headers := Ok [("content-type", "image/png")]%list |}.

Definition status_response (code : Z) : Response :=
  {| status_code := code;
     content := Ok (Some nil);
     headers := Ok nil |}.

(** A stand-in object, not a response the library builds: status 200
    and [content] is [None]. *)
Definition no_body_response : Response :=
  {| status_code := 200;
     content := Ok None;
     headers := Ok nil |}.

(** A stand-in object, not a response the library builds: status 200
    and a body, but reading its headers raises. *)
Definition no_headers_response : Response :=
  {| status_code := 200;
     content := Ok (Some (list_byte_of_string "abc"));
     headers :=
       Raise (Exn AttributeError
                  "'NoneType' object has no attribute 'get'") |}.

(** A network that answers by gateway. *)
Definition serve (a b c : Z * result Response) : Network :=
  fun url _ =>
    if prefix "https://ordinals.com/" url then a
    else if prefix "https://ord.io/" url then b
    else c.

Definition refused : result Response :=
  Raise (Exn ConnectionError "Connection refused").

Definition net_first_wins : Network :=
  serve (1, Ok text_response) (1, refused) (1, refused).

Definition net_second_wins : Network :=
  serve (2, Ok (status_response 404)) (3, Ok image_response)
        (1, Ok text_response).

Definition net_all_fail : Network :=
  serve (30, Raise (Exn Timeout "Read timed out."))
        (1, Ok (status_response 503)) (1, Ok no_body_response).

(** Every GET runs into its timeout. *)
Definition net_down : Network :=
  fun _ timeout => (timeout, Raise (Exn Timeout "Read timed out.")).

(** Every gateway answers 503 after 35 seconds, sending all along so
    that no single read waits for 30. *)
Definition net_slow_drip : Network :=
  fun _ _ => (35, Ok (status_response 503)).

Definition net_no_headers_second : Network :=
  serve (1, Ok (status_response 404)) (1, Ok no_headers_response)
        (1, Ok image_response).

(** Answers the endpoints of [inscription_id] as [net_second_wins] does, only
    slower, and everything else differently. *)
Definition net_mirror : Network :=
  fun url timeout =>
    if existsb (String.eqb url) (endpoints inscription_id)
    then (fst (net_second_wins url timeout) + 5,
          snd (net_second_wins url timeout))
    else (0, Ok text_response).

(** The first two gateways fail, the third serves six raw bytes. *)
Definition net_third_wins : Network :=
  serve (30, Raise (Exn Timeout "Read timed out."))
        (1, Ok (status_response 500)) (2, Ok image_response).

(** The second GET is interrupted from the keyboard. *)
Definition net_interrupted : Network :=
  serve (1, Ok (status_response 404))
        (7, Raise (Exn KeyboardInterrupt EmptyString))
        (1, Ok text_response).

(** The first gateway answers 200 with an empty body and no headers. *)
Definition net_bare : Network :=
  serve (1, Ok (status_response 200)) (1, refused) (1, refused).

(** ** Reference digests and sample runs *)

Example sha256_empty :
  SHA256.hexdigest nil
  = "e3b0c44298fc1c149afbf4c8996fb92427ae41e4649b934ca495991b7852b855".
Proof. vm_compute. reflexivity. Qed.

Example sha256_abc :
  SHA256.hexdigest (list_byte_of_string "abc")
  = "ba7816bf8f01cfea414140de5dae2223b00361a396177a9cb410ff61f20015ad".
Proof. vm_compute. reflexivity. Qed.

Example sha256_two_blocks :
  SHA256.hexdigest
    (list_byte_of_string
       "abcdbcdecdefdefgefghfghighijhijkijkljklmklmnlmnomnopnopq")
  = "248d6a61d20638b8e5c026930c3e6039a33ce45964ff2167f6ecedd419db06c1".
Proof. vm_compute. reflexivity. Qed.

(** Padding at the block boundary: 55, 56, 64 and 119 bytes. *)
Example sha256_padding_edges :
  map (fun n => SHA256.hexdigest (repeat x61 n)) [55; 56; 64; 119]%nat
  = [ "9f4390f8d30c2dd92ec9f095b65e2b9ae9b0a925a5258e241c9f1e910f734318";
      "b35439a4ac6f0948b6d6f9e3c6af0f5f590ce20f1bde7090ef7970686ec6738a";
      "ffe054fe7ae0cb6dc65c3af9b61d5209f439851db43d0ba5997337df154668eb";
      "31eba51c313a5c08226adf18d4a359cfdfd8d2e816b13f4af952f7ea6584dcfb"
    ]%list.
Proof. vm_compute. reflexivity. Qed.

(** Bytes that are not valid UTF-8 are hashed as they are. *)
Example sha256_not_utf8 :
  SHA256.hexdigest [xff; xfe; x00; x80; xc3; x28]%list
  = "d90106ba0c7d9f14011254c532818d6fadf524dfde8e271ddfb22bbdb4b5fb6c".
Proof. vm_compute. reflexivity. Qed.

Example str_int_examples :
  map str_int [0; 200; 301; 404; 503; -1]%Z
  = ["0"; "200"; "301"; "404"; "503"; "-1"]%list.
Proof. reflexivity. Qed.

Example headers_get_examples :
  headers_get [("Content-Type", "image/png")]%list "content-type" "unknown"
    = "image/png"
  /\ headers_get [("Server", "nginx")]%list "content-type" "unknown"
    = "unknown".
Proof. split; reflexivity. Qed.

(** The first gateway answers 404, the second serves six raw bytes. *)
Example run_second_wins :
  get_inscription_hash net_second_wins "abci0" initial
  = (Ok (Some "d90106ba0c7d9f14011254c532818d6fadf524dfde8e271ddfb22bbdb4b5fb6c"),
     {| stdout :=
          [ "Trying: https://ordinals.com/content/abci0";
            "  Status code: 404";
            "Trying: https://ord.io/content/abci0";
            (nl ++ "Success!")%string;
            "Content length: 6 bytes";
            "Content type: image/png";
            "SHA-256 Hash: d90106ba0c7d9f14011254c532818d6fadf524dfde8e271ddfb22bbdb4b5fb6c"
          ]%list;
        requests :=
          [ ("https://ordinals.com/content/abci0", 30);
            ("https://ord.io/content/abci0", 30) ]%list;
        blocked := 5 |}).
Proof. vm_compute. reflexivity. Qed.

(** A timeout, a 503 and a 200 without a body: nothing to return. *)
Example run_all_fail :
  get_inscription_hash net_all_fail "abci0" initial
  = (Ok None,
     {| stdout :=
          [ "Trying: https://ordinals.com/content/abci0";
            "  Error: Read timed out.";
            "Trying: https://ord.io/content/abci0";
            "  Status code: 503";
            "Trying: https://ordiscan.com/content/abci0";
            "  Error: object supporting the buffer API required";
            (nl ++ "Failed to retrieve content from all endpoints.")%string
          ]%list;
        requests :=
          [ ("https://ordinals.com/content/abci0", 30);
            ("https://ord.io/content/abci0", 30);
            ("https://ordiscan.com/content/abci0", 30) ]%list;
        blocked := 32 |}).
Proof. vm_compute. reflexivity. Qed.

(** The script's own call, against a first gateway that serves [abc]. *)
Example run_script :
  fst (hash_result net_first_wins)
  = Ok (Some "ba7816bf8f01cfea414140de5dae2223b00361a396177a9cb410ff61f20015ad")
  /\ requests (snd (hash_result net_first_wins))
  = [ ("https://ordinals.com/content/87e11177b0e184cd7ef0f076fc4de5ddacf509b71d2b1937a01b351965567998i0",
       30) ]%list.
Proof. vm_compute. split; reflexivity. Qed.

(** An exception that [except Exception] does not catch leaves the call. *)
Example run_interrupted :
  fst (get_inscription_hash
         (fun _ _ => (4, Raise (Exn KeyboardInterrupt EmptyString)))
         "abci0" initial)
  = Raise (Exn KeyboardInterrupt EmptyString).
Proof. reflexivity. Qed.

(** ** How one attempt unfolds *)

Lemma on_success_unfold (r : Response) (s : State) :
  on_success r s =
  match content r with
  | Raise e => (Raise e, s)
  | Ok None =>
      (Raise (Exn TypeError "object supporting the buffer API required"), s)
  | Ok (Some b) =>
      let s2 := say ("Content length: "
                       ++ str_int (Z.of_nat (List.length b)) ++ " bytes")
                    (say (nl ++ "Success!") s) in
      match headers r with
      | Raise e => (Raise e, s2)
      | Ok hs =>
          (Ok (Return (SHA256.hexdigest b)),
           say ("SHA-256 Hash: " ++ SHA256.hexdigest b)
             (say ("Content type: "
                     ++ headers_get hs "content-type" "unknown") s2))
      end
  end.
Proof.
  unfold on_success, bind, attr, print.
  destruct (content r) as [[b|]|e]; reflexivity.
Qed.

Lemma attempt_unfold (net : Network) (url : string) (s : State) :
  attempt net url s =
  match snd (net url 30) with
  | Raise e =>
      if isinstance_Exception e
      then (Ok Next, say ("  Error: " ++ exc_str e) (tried net url s))
      else (Raise e, tried net url s)
  | Ok r =>
      if (status_code r =? 200)%Z then
        match on_success r (tried net url s) with
        | (Ok f, s') => (Ok f, s')
        | (Raise e, s') =>
            if isinstance_Exception e
            then (Ok Next, say ("  Error: " ++ exc_str e) s')
            else (Raise e, s')
        end
      else
        (Ok Next,
         say ("  Status code: " ++ str_int (status_code r)) (tried net url s))
  end.
Proof.
  unfold attempt, try_except_Exception, bind, print, requests_get, tried.
  cbn [fst snd].
  destruct (snd (net url 30)) as [r|e]; [|reflexivity].
  destruct (status_code r =? 200)%Z; reflexivity.
Qed.

Lemma on_success_fst (r : Response) (s : State) :
  fst (on_success r s) = fst (on_success r initial).
Proof.
  rewrite !on_success_unfold.
  destruct (content r) as [[b|]|e]; try reflexivity.
  cbv zeta. destruct (headers r); reflexivity.
Qed.

Lemma on_success_frame (r : Response) (s : State) :
  requests (snd (on_success r s)) = requests s /\
  blocked (snd (on_success r s)) = blocked s.
Proof.
  rewrite on_success_unfold.
  destruct (content r) as [[b|]|e]; try (split; reflexivity).
  cbv zeta. destruct (headers r); split; reflexivity.
Qed.

(** Every attempt puts exactly one request on record, with timeout 30, and
    blocks for as long as that GET does. *)
Lemma attempt_frame (net : Network) (url : string) (s : State) :
  requests (snd (attempt net url s)) = (requests s ++ [(url, 30)])%list /\
  blocked (snd (attempt net url s)) = blocked s + fst (net url 30).
Proof.
  rewrite attempt_unfold.
  destruct (snd (net url 30)) as [r|e].
  - destruct (status_code r =? 200)%Z; [|split; reflexivity].
    destruct (on_success_frame r (tried net url s)) as [Hq Hb].
    destruct (on_success r (tried net url s)) as [[f|e] s']; cbn [snd] in *.
    + split; assumption.
    + destruct (isinstance_Exception e); cbn [snd say requests blocked];
        split; assumption.
  - destruct (isinstance_Exception e); split; reflexivity.
Qed.

(** An attempt returns a value only from the end of the success branch. *)
Lemma attempt_Return (net : Network) (url : string) (s s' : State)
      (h : string) :
  attempt net url s = (Ok (Return h), s') ->
  exists r b hs,
    snd (net url 30) = Ok r /\ status_code r = 200 /\
    content r = Ok (Some b) /\ headers r = Ok hs /\
    h = SHA256.hexdigest b.
Proof.
  rewrite attempt_unfold.
  destruct (snd (net url 30)) as [r|e].
  - destruct (status_code r =? 200)%Z eqn:E; [|discriminate].
    apply Z.eqb_eq in E. rewrite on_success_unfold.
    destruct (content r) as [[b|]|e] eqn:Ec.
    + cbv zeta. destruct (headers r) as [hs|e] eqn:Eh.
      * intros H. injection H as Hh _. subst h.
        exists r, b, hs. repeat split; assumption.
      * destruct (isinstance_Exception e); discriminate.
    + cbn. discriminate.
    + destruct (isinstance_Exception e); discriminate.
  - destruct (isinstance_Exception e); discriminate.
Qed.

(** A failing attempt hands control to the next iteration. *)
Lemma attempt_fails_Next (net : Network) (url : string) (s : State) :
  attempt_fails net url = true ->
  fst (attempt net url s) = Ok Next.
Proof.
  unfold attempt_fails, success_branch_raises. rewrite attempt_unfold.
  destruct (snd (net url 30)) as [r|e].
  - destruct (status_code r =? 200)%Z; [|reflexivity].
    cbn [negb orb]. rewrite <- (on_success_fst r (tried net url s)).
    destruct (on_success r (tried net url s)) as [[f|e] s']; cbn [fst].
    + discriminate.
    + intros ->. reflexivity.
  - intros ->. reflexivity.
Qed.

(** ** The loop *)

Lemma for_url_in_cons (net : Network) (url : string) (rest : list string)
      (s : State) :
  for_url_in net (url :: rest) s =
  match attempt net url s with
  | (Ok (Return hash_value), s') => (Ok (Some hash_value), s')
  | (Ok Next, s') => for_url_in net rest s'
  | (Raise e, s') => (Raise e, s')
  end.
Proof.
  cbn [for_url_in]. unfold bind.
  destruct (attempt net url s) as [[[|h]|e] s']; reflexivity.
Qed.

(** The loop sends its requests in list order, one per endpoint, and stops
    somewhere along the list. *)
Lemma for_url_in_prefix (net : Network) (urls : list string) :
  forall s, exists k,
    (k <= List.length urls)%nat /\
    requests (snd (for_url_in net urls s))
      = (requests s ++ issued (firstn k urls))%list /\
    blocked (snd (for_url_in net urls s))
      = blocked s + waits net (firstn k urls).
Proof.
  induction urls as [|url rest IH]; intros s.
  - exists 0%nat. cbn. rewrite app_nil_r. repeat split; lia.
  - rewrite for_url_in_cons.
    destruct (attempt_frame net url s) as [Hq Hb].
    destruct (attempt net url s) as [[[|h]|e] s']; cbn [snd] in *.
    + destruct (IH s') as (k & Hk & Hq' & Hb').
      exists (S k). cbn [firstn issued map waits fold_right List.length].
      rewrite Hq', Hb', Hq, Hb, <- app_assoc. fold (issued (firstn k rest)).
      fold (waits net (firstn k rest)).
      repeat split; cbn [app]; try lia. 
    + exists 1%nat. cbn. rewrite Hq, Hb. repeat split; lia.
    + exists 1%nat. cbn. rewrite Hq, Hb. repeat split; lia.
Qed.

Lemma get_inscription_hash_unfold (net : Network) (id : string) (s : State) :
  get_inscription_hash net id s =
  match for_url_in net (endpoints id) s with
  | (Ok (Some hash_value), s') => (Ok (Some hash_value), s')
  | (Ok None, s') =>
      (Ok None,
       say (nl ++ "Failed to retrieve content from all endpoints.") s')
  | (Raise e, s') => (Raise e, s')
  end.
Proof.
  unfold get_inscription_hash, bind.
  destruct (for_url_in net (endpoints id) s) as [[[h|]|e] s']; reflexivity.
Qed.

Lemma call_prefix (net : Network) (id : string) (s : State) :
  exists k,
    (k <= 3)%nat /\
    requests (snd (get_inscription_hash net id s))
      = (requests s ++ issued (firstn k (endpoints id)))%list /\
    blocked (snd (get_inscription_hash net id s))
      = blocked s + waits net (firstn k (endpoints id)).
Proof.
  destruct (for_url_in_prefix net (endpoints id) s) as (k & Hk & Hq & Hb).
  exists k. rewrite get_inscription_hash_unfold.
  destruct (for_url_in net (endpoints id) s) as [[[h|]|e] s'];
    cbn [snd say requests blocked] in *; repeat split; assumption.
Qed.

Lemma endpoints_NoDup (id : string) : NoDup (endpoints id).
Proof.
  unfold endpoints.
  repeat constructor; cbn [In]; intros H;
    repeat (destruct H as [H|H]); try contradiction;
    cbn in H; discriminate H.
Qed.

Lemma firstn_NoDup {A} (k : nat) (l : list A) :
  NoDup l -> NoDup (firstn k l).
Proof.
  intros H. rewrite <- (firstn_skipn k l) in H.
  eapply NoDup_app_remove_r. exact H.
Qed.

Lemma issued_NoDup (urls : list string) : NoDup urls -> NoDup (issued urls).
Proof.
  unfold issued. induction 1 as [|url rest Hnew _ IH]; cbn [map];
    constructor; [|exact IH].
  intros Hin. apply in_map_iff in Hin as (u & E & Hu).
  injection E as ->. contradiction.
Qed.

(** The loop returns a digest only from a winning attempt, whose request is
    the last one on record. *)
Lemma for_url_in_Some (net : Network) (urls : list string) :
  forall s s' h,
    for_url_in net urls s = (Ok (Some h), s') ->
    exists url r b earlier,
      In url urls /\ snd (net url 30) = Ok r /\ status_code r = 200 /\
      content r = Ok (Some b) /\ h = SHA256.hexdigest b /\
      requests s' = (earlier ++ [(url, 30)])%list.
Proof.
  induction urls as [|url rest IH]; intros s s' h.
  - cbn. discriminate.
  - rewrite for_url_in_cons.
    destruct (attempt_frame net url s) as [Hq _].
    destruct (attempt net url s) as [[[|v]|e] s1] eqn:E; cbn [snd] in Hq.
    + intros H. destruct (IH _ _ _ H) as (u & r & b & earlier & Hin & Hrest).
      exists u, r, b, earlier. split; [right; exact Hin | exact Hrest].
    + intros H. injection H as Hv Hs. subst v s1.
      destruct (attempt_Return _ _ _ _ _ E) as (r & b & hs & H1 & H2 & H3 & _ & H5).
      exists url, r, b, (requests s). repeat split; try assumption.
      left; reflexivity.
    + discriminate.
Qed.

(** ** The shape of a hex digest *)

Lemma hex_length (bs : list byte) :
  String.length (SHA256.hex bs) = (2 * List.length bs)%nat.
Proof. induction bs as [|b bs IH]; cbn [SHA256.hex String.length List.length]; lia. Qed.

Lemma digest_length (data : list byte) :
  List.length (SHA256.digest data) = 32%nat.
Proof.
  unfold SHA256.digest. cbv zeta. rewrite length_map.
  unfold SHA256.regs_words. cbn [flat_map].
  rewrite !length_app. unfold SHA256.be_bytes.
  rewrite !length_map, !length_rev, !length_seq. reflexivity.
Qed.

Lemma hexdigit_lower (n : Z) : is_lower_hex (SHA256.hexdigit n) = true.
Proof.
  unfold SHA256.hexdigit.
  destruct (nth_in_or_default (Z.to_nat n) SHA256.hexdigits "0"%char) as [H|H].
  - revert H. generalize (nth (Z.to_nat n) SHA256.hexdigits "0"%char).
    apply (proj1 (forallb_forall is_lower_hex SHA256.hexdigits)).
    reflexivity.
  - rewrite H. reflexivity.
Qed.

Lemma hex_lower (bs : list byte) :
  forallb is_lower_hex (list_ascii_of_string (SHA256.hex bs)) = true.
Proof.
  induction bs as [|b bs IH]; [reflexivity|].
  cbn [SHA256.hex list_ascii_of_string forallb].
  rewrite !hexdigit_lower, IH. reflexivity.
Qed.

(** ** Two environments that answer alike *)

Lemma attempt_fst_determined (net1 net2 : Network) (url : string)
      (s1 s2 : State) :
  snd (net1 url 30) = snd (net2 url 30) ->
  fst (attempt net1 url s1) = fst (attempt net2 url s2).
Proof.
  intros H. rewrite !attempt_unfold, H.
  destruct (snd (net2 url 30)) as [r|e].
  - destruct (status_code r =? 200)%Z; [|reflexivity].
    pose proof (on_success_fst r (tried net1 url s1)) as H1.
    pose proof (on_success_fst r (tried net2 url s2)) as H2.
    destruct (on_success r (tried net1 url s1)) as [[f1|e1] t1];
      destruct (on_success r (tried net2 url s2)) as [[f2|e2] t2];
      cbn [fst] in *; rewrite <- H1 in H2; try discriminate.
    + injection H2 as ->. reflexivity.
    + injection H2 as ->. destruct (isinstance_Exception e1); reflexivity.
  - destruct (isinstance_Exception e); reflexivity.
Qed.

Lemma for_url_in_fst_determined (net1 net2 : Network) (urls : list string) :
  (forall url, In url urls -> snd (net1 url 30) = snd (net2 url 30)) ->
  forall s1 s2,
    fst (for_url_in net1 urls s1) = fst (for_url_in net2 urls s2).
Proof.
  induction urls as [|url rest IH]; intros H s1 s2; [reflexivity|].
  rewrite !for_url_in_cons.
  pose proof (attempt_fst_determined net1 net2 url s1 s2
                (H url (or_introl eq_refl))) as E.
  destruct (attempt net1 url s1) as [[[|h1]|e1] t1];
    destruct (attempt net2 url s2) as [[[|h2]|e2] t2];
    cbn [fst] in *; try discriminate.
  - apply IH. intros u Hu. apply H. right. exact Hu.
  - injection E as ->. reflexivity.
  - injection E as ->. reflexivity.
Qed.

Lemma attempt_wins (net : Network) (url : string) (s : State) (r : Response)
      (b : list byte) (hs : list (string * string)) :
  snd (net url 30) = Ok r -> status_code r = 200 ->
  content r = Ok (Some b) -> headers r = Ok hs ->
  fst (attempt net url s) = Ok (Return (SHA256.hexdigest b)).
Proof.
  intros Hr H200 Hc Hh.
  rewrite attempt_unfold, Hr, H200, Z.eqb_refl, on_success_unfold, Hc.
  cbv zeta. rewrite Hh. reflexivity.
Qed.

(** A winning attempt, with everything it prints. *)
Lemma attempt_wins_state (net : Network) (url : string) (s : State)
      (r : Response) (b : list byte) (hs : list (string * string)) :
  snd (net url 30) = Ok r -> status_code r = 200 ->
  content r = Ok (Some b) -> headers r = Ok hs ->
  attempt net url s
  = (Ok (Return (SHA256.hexdigest b)),
     say ("SHA-256 Hash: " ++ SHA256.hexdigest b)
       (say ("Content type: " ++ headers_get hs "content-type" "unknown")
          (say ("Content length: "
                  ++ str_int (Z.of_nat (List.length b)) ++ " bytes")
             (say (nl ++ "Success!") (tried net url s))))).
Proof.
  intros Hr H200 Hc Hh.
  rewrite attempt_unfold, Hr, H200, Z.eqb_refl, on_success_unfold, Hc.
  cbv zeta. rewrite Hh. reflexivity.
Qed.

Lemma for_url_in_all_fail (net : Network) (urls : list string) :
  (forall url, In url urls -> attempt_fails net url = true) ->
  forall s,
    fst (for_url_in net urls s) = Ok None /\
    requests (snd (for_url_in net urls s))
      = (requests s ++ issued urls)%list.
Proof.
  induction urls as [|url rest IH]; intros H s.
  - cbn. rewrite app_nil_r. split; reflexivity.
  - rewrite for_url_in_cons.
    pose proof (attempt_fails_Next net url s (H url (or_introl eq_refl))) as E.
    destruct (attempt_frame net url s) as [Hq _].
    destruct (attempt net url s) as [[[|h]|e] s']; cbn [fst snd] in *;
      try discriminate.
    destruct (IH (fun u Hu => H u (or_intror Hu)) s') as [I1 I2].
    split; [exact I1|].
    rewrite I2, Hq, <- app_assoc. reflexivity.
Qed.

(** ** The claims *)

(** Case analysis on membership in the endpoint list of a given id. *)
Ltac each_endpoint H :=
  cbn [endpoints In] in H;
  destruct H as [<-|[<-|[<-|[]]]].

(** C1. Whenever [get_inscription_hash] returns a digest, some endpoint of
    the list answered its GET with status 200, its request is the last
    one issued (it is the winning endpoint), and the value returned is
    the SHA-256 of exactly the bytes of that response body, written as 64
    lowercase hexadecimal characters. *)
Theorem digest_is_sha256_of_winning_body
        (net : Network) (id : string) (s : State) (h : string) :
  fst (get_inscription_hash net id s) = Ok (Some h) ->
  exists url r b earlier,
    In url (endpoints id) /\
    snd (net url 30) = Ok r /\ status_code r = 200 /\
    content r = Ok (Some b) /\
    requests (snd (get_inscription_hash net id s))
      = (earlier ++ [(url, 30)])%list /\
    h = SHA256.hexdigest b /\
    String.length h = 64%nat /\
    forallb is_lower_hex (list_ascii_of_string h) = true.
Proof.
  rewrite get_inscription_hash_unfold.
  destruct (for_url_in net (endpoints id) s) as [[[v|]|e] s'] eqn:E;
    cbn [fst snd]; try discriminate.
  intros H. injection H as ->.
  destruct (for_url_in_Some _ _ _ _ _ E)
    as (url & r & b & earlier & Hin & Hr & H200 & Hc & Hh & Hq).
  exists url, r, b, earlier. subst h.
  repeat (split; [assumption|]).
  split; [reflexivity|]. split.
  - unfold SHA256.hexdigest. rewrite hex_length, digest_length. reflexivity.
  - apply hex_lower.
Qed.

Lemma digest_is_sha256_of_winning_body_witness :
  fst (get_inscription_hash net_second_wins inscription_id initial)
    = Ok (Some "d90106ba0c7d9f14011254c532818d6fadf524dfde8e271ddfb22bbdb4b5fb6c")
  /\ exists url r b earlier,
    In url (endpoints inscription_id) /\
    snd (net_second_wins url 30) = Ok r /\ status_code r = 200 /\
    content r = Ok (Some b) /\
    requests (snd (get_inscription_hash net_second_wins inscription_id initial))
      = (earlier ++ [(url, 30)])%list /\
    "d90106ba0c7d9f14011254c532818d6fadf524dfde8e271ddfb22bbdb4b5fb6c"
      = SHA256.hexdigest b /\
    String.length
      "d90106ba0c7d9f14011254c532818d6fadf524dfde8e271ddfb22bbdb4b5fb6c"
      = 64%nat /\
    forallb is_lower_hex
      (list_ascii_of_string
         "d90106ba0c7d9f14011254c532818d6fadf524dfde8e271ddfb22bbdb4b5fb6c")
      = true.
Proof.
  split.
  - vm_compute. reflexivity.
  - apply (digest_is_sha256_of_winning_body net_second_wins inscription_id initial).
    vm_compute. reflexivity.
Defined.

(** C2. If the GET of the first endpoint returns status 200 (a response
    as the library builds it: the body as bytes, the headers as a
    mapping), the call returns the digest of that body at once: the only
    request it issues is the one to the first endpoint. *)
Theorem first_success_short_circuits
        (net : Network) (id : string) (s : State) (r : Response)
        (b : list byte) (hs : list (string * string)) :
  snd (net (nth 0 (endpoints id) EmptyString) 30) = Ok r ->
  status_code r = 200 ->
  content r = Ok (Some b) ->
  headers r = Ok hs ->
  fst (get_inscription_hash net id s) = Ok (Some (SHA256.hexdigest b)) /\
  requests (snd (get_inscription_hash net id s))
    = (requests s ++ issued (firstn 1 (endpoints id)))%list.
Proof.
  unfold endpoints. cbn [nth firstn issued map].
  intros Hr H200 Hc Hh.
  rewrite get_inscription_hash_unfold. unfold endpoints.
  rewrite for_url_in_cons.
  pose proof (attempt_wins net _ s r b hs Hr H200 Hc Hh) as W.
  destruct (attempt_frame net ("https://ordinals.com/content/" ++ id) s)
    as [Hq _].
  destruct (attempt net ("https://ordinals.com/content/" ++ id) s)
    as [[[|v]|e] s']; cbn [fst snd] in *; try discriminate.
  injection W as ->. split; [reflexivity | exact Hq].
Qed.

Lemma first_success_short_circuits_witness :
  fst (get_inscription_hash net_first_wins inscription_id initial)
    = Ok (Some (SHA256.hexdigest (list_byte_of_string "abc"))) /\
  requests (snd (get_inscription_hash net_first_wins inscription_id initial))
    = (requests initial ++ issued (firstn 1 (endpoints inscription_id)))%list.
Proof.
  apply (first_success_short_circuits net_first_wins inscription_id initial
           text_response (list_byte_of_string "abc")
           [("Content-Type", "text/plain")]%list);
    reflexivity.
Defined.

(** C3. If the attempt on the first endpoint fails (a raised error or a
    status other than 200) and the GET of the second returns status 200
    (a response as the library builds it), the call returns the digest
    of the second body and issues no request to the third endpoint. *)
Theorem second_success_short_circuits
        (net : Network) (id : string) (s : State) (r : Response)
        (b : list byte) (hs : list (string * string)) :
  attempt_fails net (nth 0 (endpoints id) EmptyString) = true ->
  snd (net (nth 1 (endpoints id) EmptyString) 30) = Ok r ->
  status_code r = 200 ->
  content r = Ok (Some b) ->
  headers r = Ok hs ->
  fst (get_inscription_hash net id s) = Ok (Some (SHA256.hexdigest b)) /\
  requests (snd (get_inscription_hash net id s))
    = (requests s ++ issued (firstn 2 (endpoints id)))%list.
Proof.
  unfold endpoints. cbn [nth firstn issued map].
  intros Hf Hr H200 Hc Hh.
  rewrite get_inscription_hash_unfold. unfold endpoints.
  rewrite for_url_in_cons.
  pose proof (attempt_fails_Next net _ s Hf) as F.
  destruct (attempt_frame net ("https://ordinals.com/content/" ++ id) s)
    as [Hq1 _].
  destruct (attempt net ("https://ordinals.com/content/" ++ id) s)
    as [[[|v]|e] s1]; cbn [fst snd] in *; try discriminate.
  rewrite for_url_in_cons.
  pose proof (attempt_wins net _ s1 r b hs Hr H200 Hc Hh) as W.
  destruct (attempt_frame net ("https://ord.io/content/" ++ id) s1)
    as [Hq2 _].
  destruct (attempt net ("https://ord.io/content/" ++ id) s1)
    as [[[|v]|e] s2]; cbn [fst snd] in *; try discriminate.
  injection W as ->. split; [reflexivity|].
  rewrite Hq2, Hq1, <- app_assoc. reflexivity.
Qed.

Lemma second_success_short_circuits_witness :
  fst (get_inscription_hash net_second_wins inscription_id initial)
    = Ok (Some (SHA256.hexdigest [xff; xfe; x00; x80; xc3; x28]%list)) /\
  requests (snd (get_inscription_hash net_second_wins inscription_id initial))
    = (requests initial ++ issued (firstn 2 (endpoints inscription_id)))%list.
Proof.
  apply (second_success_short_circuits net_second_wins inscription_id initial
           image_response [xff; xfe; x00; x80; xc3; x28]%list
           [("content-type", "image/png")]%list);
    reflexivity.
Defined.

(** C4. If the attempt on every endpoint ends in a status other than 200
    or in a raised error, the call returns [None]: no exception leaves it,
    all three endpoints were asked, and the last line printed reports the
    overall failure. *)
Theorem all_fail_returns_None (net : Network) (id : string) (s : State) :
  (forall url, In url (endpoints id) -> attempt_fails net url = true) ->
  fst (get_inscription_hash net id s) = Ok None /\
  requests (snd (get_inscription_hash net id s))
    = (requests s ++ issued (endpoints id))%list /\
  last (stdout (snd (get_inscription_hash net id s))) EmptyString
    = nl ++ "Failed to retrieve content from all endpoints.".
Proof.
  intros H. rewrite get_inscription_hash_unfold.
  destruct (for_url_in_all_fail net (endpoints id) H s) as [F Q].
  destruct (for_url_in net (endpoints id) s) as [[[v|]|e] s'];
    cbn [fst snd say stdout requests] in *; try discriminate.
  repeat split; [exact Q | apply last_last].
Qed.

Lemma all_fail_returns_None_witness :
  fst (get_inscription_hash net_all_fail inscription_id initial) = Ok None /\
  requests (snd (get_inscription_hash net_all_fail inscription_id initial))
    = (requests initial ++ issued (endpoints inscription_id))%list /\
  last (stdout (snd (get_inscription_hash net_all_fail inscription_id initial))) EmptyString
    = nl ++ "Failed to retrieve content from all endpoints.".
Proof.
  apply (all_fail_returns_None net_all_fail inscription_id initial).
  intros url H. each_endpoint H; reflexivity.
Defined.

(** C5. Exactly status 200 is a success. On any other status the attempt
    raises nothing, prints the numeric code and hands over to the next
    endpoint of the list. On status 200 the response is accepted: the
    attempt returns the digest of its body, no status line is printed
    and the loop returns that digest without asking the endpoints that
    follow. And an attempt that returns a digest had status 200. *)
Theorem only_200_is_success
        (net : Network) (url : string) (rest : list string) (s : State)
        (r : Response) :
  snd (net url 30) = Ok r ->
  (status_code r <> 200 ->
     attempt net url s
       = (Ok Next,
          say ("  Status code: " ++ str_int (status_code r))
              (tried net url s)) /\
     for_url_in net (url :: rest) s
       = for_url_in net rest
           (say ("  Status code: " ++ str_int (status_code r))
                (tried net url s))) /\
  (status_code r = 200 ->
     forall b hs,
       content r = Ok (Some b) -> headers r = Ok hs ->
       fst (attempt net url s) = Ok (Return (SHA256.hexdigest b)) /\
       fst (for_url_in net (url :: rest) s) = Ok (Some (SHA256.hexdigest b)) /\
       requests (snd (for_url_in net (url :: rest) s))
         = (requests s ++ [(url, 30)])%list /\
       ~ In ("  Status code: " ++ str_int (status_code r))
            (skipn (List.length (stdout s))
                   (stdout (snd (for_url_in net (url :: rest) s))))) /\
  (forall h, fst (attempt net url s) = Ok (Return h) -> status_code r = 200).
Proof.
  intros Hr. split; [|split].
  - intros Hne. apply Z.eqb_neq in Hne.
    assert (A : attempt net url s
                = (Ok Next,
                   say ("  Status code: " ++ str_int (status_code r))
                       (tried net url s))).
    { rewrite attempt_unfold, Hr, Hne. reflexivity. }
    split; [exact A|]. rewrite for_url_in_cons, A. reflexivity.
  - intros H200 b hs Hc Hh.
    rewrite for_url_in_cons.
    rewrite (attempt_wins_state net url s r b hs Hr H200 Hc Hh).
    cbn [fst snd say tried sent requests stdout].
    refine (conj eq_refl (conj eq_refl (conj eq_refl _))).
    rewrite <- !app_assoc, skipn_app, skipn_all, Nat.sub_diag.
    cbn [skipn app In]. rewrite H200.
    intros [H|[H|[H|[H|[H|[]]]]]]; discriminate H.
  - intros h H.
    destruct (attempt net url s) as [f s'] eqn:E. cbn [fst] in H. subst f.
    destruct (attempt_Return _ _ _ _ _ E) as (r' & b & hs & Hr' & H200 & _).
    rewrite Hr in Hr'. injection Hr' as <-. exact H200.
Qed.

Lemma only_200_is_success_witness :
  attempt net_second_wins (nth 0 (endpoints inscription_id) EmptyString) initial
    = (Ok Next,
       say "  Status code: 404"
           (tried net_second_wins
                  (nth 0 (endpoints inscription_id) EmptyString) initial))
  /\ fst (attempt net_second_wins
            (nth 1 (endpoints inscription_id) EmptyString) initial)
     = Ok (Return (SHA256.hexdigest [xff; xfe; x00; x80; xc3; x28]%list)).
Proof.
  split.
  - refine (proj1 (proj1 (only_200_is_success net_second_wins
                            (nth 0 (endpoints inscription_id) EmptyString)
                            nil initial (status_response 404) _) _)).
    + reflexivity.
    + cbn. discriminate.
  - refine (proj1 (proj1 (proj2 (only_200_is_success net_second_wins
                                   (nth 1 (endpoints inscription_id) EmptyString)
                                   nil initial image_response _))
                         _ [xff; xfe; x00; x80; xc3; x28]%list
                         [("content-type", "image/png")]%list _ _));
      reflexivity.
Defined.

(** C6. Whatever error the GET raises, of whatever class and with whatever
    message, the attempt catches it, prints it and hands over to the next
    endpoint; the class plays no part in what happens next. No endpoint
    is asked twice: the requests of a call are a duplicate-free initial
    part of the endpoint list. *)
Theorem any_error_moves_on
        (net : Network) (url : string) (rest : list string) (s : State)
        (e : exn) :
  snd (net url 30) = Raise e ->
  isinstance_Exception e = true ->
  attempt net url s
    = (Ok Next, say ("  Error: " ++ exc_str e) (tried net url s)) /\
  for_url_in net (url :: rest) s
    = for_url_in net rest (say ("  Error: " ++ exc_str e) (tried net url s)) /\
  (forall id s0, exists k,
      requests (snd (get_inscription_hash net id s0))
        = (requests s0 ++ issued (firstn k (endpoints id)))%list /\
      NoDup (issued (firstn k (endpoints id)))).
Proof.
  intros Hr He.
  assert (A : attempt net url s
              = (Ok Next, say ("  Error: " ++ exc_str e) (tried net url s))).
  { rewrite attempt_unfold, Hr, He. reflexivity. }
  split; [exact A|]. split.
  - rewrite for_url_in_cons, A. reflexivity.
  - intros id s0. destruct (call_prefix net id s0) as (k & _ & Hq & _).
    exists k. split; [exact Hq|].
    apply issued_NoDup, firstn_NoDup, endpoints_NoDup.
Qed.

Lemma any_error_moves_on_witness :
  attempt net_down (nth 0 (endpoints inscription_id) EmptyString) initial
    = (Ok Next,
       say "  Error: Read timed out."
           (tried net_down (nth 0 (endpoints inscription_id) EmptyString) initial)).
Proof.
  refine (proj1 (any_error_moves_on net_down
                   (nth 0 (endpoints inscription_id) EmptyString) nil initial
                   (Exn Timeout "Read timed out.") _ _));
    reflexivity.
Defined.

(** C7, as amended. Every attempt issues exactly one GET, with timeout
    30, and is blocked for as long as that GET takes; a call issues at
    most three of them, one after the other in list order, and the time
    it is blocked is the sum of the times of those GETs. No bound on
    that sum follows from the timeout. *)
Theorem three_sequential_gets_with_timeout_30
        (net : Network) (id : string) (s : State) :
  (forall url s0,
      requests (snd (attempt net url s0)) = (requests s0 ++ [(url, 30)])%list /\
      blocked (snd (attempt net url s0)) = blocked s0 + fst (net url 30)) /\
  exists k,
    (k <= 3)%nat /\
    requests (snd (get_inscription_hash net id s))
      = (requests s ++ issued (firstn k (endpoints id)))%list /\
    blocked (snd (get_inscription_hash net id s))
      = blocked s + waits net (firstn k (endpoints id)).
Proof.
  split.
  - intros url s0. apply attempt_frame.
  - apply call_prefix.
Qed.

(** C7 as stated fails: with gateways that take 35 seconds to answer,
    never pausing for 30, each of the three GETs is issued with timeout
    30 and the call is blocked for 105 seconds, more than 30 * 3. *)
Lemma blocking_time_counterexample :
  requests (snd (get_inscription_hash net_slow_drip inscription_id initial))
    = issued (endpoints inscription_id) /\
  blocked (snd (get_inscription_hash net_slow_drip inscription_id initial))
    = 105 /\
  30 * 3
    < blocked (snd (get_inscription_hash net_slow_drip inscription_id initial))
      - blocked initial.
Proof. vm_compute. repeat split; reflexivity. Qed.


(** C9. The handler also covers the success branch. After a response with
    status 200, if reading the body raises, or hashing raises because
    there is no body to hash, or the header read for the diagnostics
    raises, the error is caught: the attempt prints it and the loop goes
    on with the next endpoint. *)
Theorem success_branch_errors_are_caught
        (net : Network) (url : string) (rest : list string) (s : State)
        (r : Response) (e : exn) :
  snd (net url 30) = Ok r ->
  status_code r = 200 ->
  isinstance_Exception e = true ->
  content r = Raise e
  \/ (content r = Ok None
      /\ e = Exn TypeError "object supporting the buffer API required")
  \/ (exists b, content r = Ok (Some b) /\ headers r = Raise e) ->
  exists s',
    attempt net url s = (Ok Next, s') /\
    last (stdout s') EmptyString = "  Error: " ++ exc_str e /\
    requests s' = (requests s ++ [(url, 30)])%list /\
    for_url_in net (url :: rest) s = for_url_in net rest s'.
Proof.
  intros Hr H200 He Hstep.
  assert (A : exists s', attempt net url s = (Ok Next, s') /\
                         last (stdout s') EmptyString = "  Error: " ++ exc_str e).
  { rewrite attempt_unfold, Hr, H200, Z.eqb_refl, on_success_unfold.
    destruct Hstep as [Hc|[[Hc ->]|(b & Hc & Hh)]]; rewrite Hc.
    - rewrite He. eexists. split; [reflexivity | apply last_last].
    - eexists. split; [reflexivity | apply last_last].
    - cbv zeta. rewrite Hh, He.
      eexists. split; [reflexivity | apply last_last]. }
  destruct A as (s' & A & L). exists s'.
  destruct (attempt_frame net url s) as [Hq _]. rewrite A in Hq.
  repeat split; try assumption.
  rewrite for_url_in_cons, A. reflexivity.
Qed.

Lemma success_branch_errors_are_caught_witness :
  exists s',
    attempt net_no_headers_second (nth 1 (endpoints inscription_id) EmptyString) initial
      = (Ok Next, s') /\
    last (stdout s') EmptyString = "  Error: 'NoneType' object has no attribute 'get'" /\
    requests s'
      = (requests initial ++ [(nth 1 (endpoints inscription_id) EmptyString, 30)])%list /\
    for_url_in net_no_headers_second
      (nth 1 (endpoints inscription_id) EmptyString :: nth 2 (endpoints inscription_id) EmptyString :: nil)
      initial
      = for_url_in net_no_headers_second
          (nth 2 (endpoints inscription_id) EmptyString :: nil) s'.
Proof.
  apply (success_branch_errors_are_caught net_no_headers_second
           (nth 1 (endpoints inscription_id) EmptyString)
           (nth 2 (endpoints inscription_id) EmptyString :: nil) initial
           no_headers_response
           (Exn AttributeError "'NoneType' object has no attribute 'get'")).
  - reflexivity.
  - reflexivity.
  - reflexivity.
  - right. right. exists (list_byte_of_string "abc"). split; reflexivity.
Defined.

(** C10. Two runs on the same inscription id whose endpoints answer alike
    (the same response, or the same raised exception) end alike: the same
    digest, or [None], or the same exception, whatever the runs started
    from and however long the GETs took. *)
Theorem same_answers_same_result
        (net1 net2 : Network) (id : string) (s1 s2 : State) :
  (forall url, In url (endpoints id) ->
               snd (net1 url 30) = snd (net2 url 30)) ->
  fst (get_inscription_hash net1 id s1) = fst (get_inscription_hash net2 id s2).
Proof.
  intros H. rewrite !get_inscription_hash_unfold.
  pose proof (for_url_in_fst_determined net1 net2 (endpoints id) H s1 s2) as E.
  destruct (for_url_in net1 (endpoints id) s1) as [[[h1|]|e1] t1];
    destruct (for_url_in net2 (endpoints id) s2) as [[[h2|]|e2] t2];
    cbn [fst] in *; congruence.
Qed.

Lemma same_answers_same_result_witness :
  fst (get_inscription_hash net_second_wins inscription_id initial)
    = fst (get_inscription_hash net_mirror inscription_id
             (say "earlier output" initial)).
Proof.
  apply (same_answers_same_result net_second_wins net_mirror inscription_id).
  intros url H. each_endpoint H; reflexivity.
Defined.

(** ** Further properties of the call *)

(** What the result of an attempt says about the endpoint. *)
Lemma attempt_outcome (net : Network) (url : string) (s : State) :
  match fst (attempt net url s) with
  | Ok Next => attempt_fails net url = true
  | Ok (Return _) => attempt_fails net url = false
  | Raise e => isinstance_Exception e = false /\ attempt_fails net url = false
  end.
Proof.
  rewrite attempt_unfold. unfold attempt_fails, success_branch_raises.
  destruct (snd (net url 30)) as [r|e].
  - destruct (status_code r =? 200)%Z; [|reflexivity].
    rewrite !on_success_unfold. cbn [negb orb].
    destruct (content r) as [[b|]|e]; cbv zeta.
    + destruct (headers r) as [hs|e]; cbn [fst]; [reflexivity|].
      destruct (isinstance_Exception e) eqn:E; cbn [fst]; auto.
    + reflexivity.
    + cbn [fst]. destruct (isinstance_Exception e) eqn:E; cbn [fst]; auto.
  - destruct (isinstance_Exception e) eqn:E; cbn [fst]; auto.
Qed.

(** An attempt only adds lines, the first of which announces the url. *)
Lemma attempt_stdout (net : Network) (url : string) (s : State) :
  exists new,
    stdout (snd (attempt net url s))
    = (stdout s ++ ("Trying: " ++ url)%string :: new)%list.
Proof.
  rewrite attempt_unfold.
  destruct (snd (net url 30)) as [r|e].
  - destruct (status_code r =? 200)%Z.
    + rewrite on_success_unfold.
      destruct (content r) as [[b|]|e]; cbv zeta.
      * destruct (headers r) as [hs|e];
          [|destruct (isinstance_Exception e)];
          cbn [snd say tried sent stdout]; rewrite <- ?app_assoc;
          eexists; reflexivity.
      * cbn [snd say tried sent stdout isinstance_Exception exc_type
             issubclass_Exception].
        rewrite <- ?app_assoc. eexists; reflexivity.
      * destruct (isinstance_Exception e);
          cbn [snd say tried sent stdout]; rewrite <- ?app_assoc;
          [eexists; reflexivity | exists nil; reflexivity].
    + cbn [snd say tried sent stdout]. rewrite <- app_assoc.
      eexists; reflexivity.
  - destruct (isinstance_Exception e); cbn [snd say tried sent stdout];
      rewrite <- ?app_assoc; [eexists; reflexivity | exists nil; reflexivity].
Qed.

(** Endpoints whose attempts fail are passed over, each asked once. *)
Lemma for_url_in_skip_failed (net : Network) (pre rest : list string) :
  (forall u, In u pre -> attempt_fails net u = true) ->
  forall s, exists s1,
    for_url_in net (pre ++ rest) s = for_url_in net rest s1 /\
    requests s1 = (requests s ++ issued pre)%list.
Proof.
  induction pre as [|url pre IH]; intros H s.
  - exists s. cbn. rewrite app_nil_r. split; reflexivity.
  - cbn [app]. rewrite for_url_in_cons.
    pose proof (attempt_fails_Next net url s (H url (or_introl eq_refl))) as E.
    destruct (attempt_frame net url s) as [Hq _].
    destruct (attempt net url s) as [[[|h]|e] s']; cbn [fst snd] in *;
      try discriminate.
    destruct (IH (fun u Hu => H u (or_intror Hu)) s') as (s1 & I1 & I2).
    exists s1. split; [exact I1|].
    rewrite I2, Hq, <- app_assoc. reflexivity.
Qed.

Lemma issued_app (l1 l2 : list string) :
  issued (l1 ++ l2) = (issued l1 ++ issued l2)%list.
Proof. apply map_app. Qed.


(** The winner is the first endpoint whose attempt does not fail, and
    the last four lines printed are those of its success branch. *)
Lemma for_url_in_winner (net : Network) (urls : list string) :
  forall s s' h,
    for_url_in net urls s = (Ok (Some h), s') ->
    exists pre url rest r b hs,
      urls = (pre ++ url :: rest)%list /\
      (forall u, In u pre -> attempt_fails net u = true) /\
      attempt_fails net url = false /\
      snd (net url 30) = Ok r /\ content r = Ok (Some b) /\
      headers r = Ok hs /\ h = SHA256.hexdigest b /\
      requests s' = (requests s ++ issued (pre ++ [url]))%list /\
      exists earlier,
        stdout s'
        = (earlier
             ++ [ (nl ++ "Success!")%string;
                  ("Content length: "
                     ++ str_int (Z.of_nat (List.length b)) ++ " bytes")%string;
                  ("Content type: "
                     ++ headers_get hs "content-type" "unknown")%string;
                  ("SHA-256 Hash: " ++ h)%string ])%list.
Proof.
  induction urls as [|url rest IH]; intros s s' h.
  - cbn. discriminate.
  - rewrite for_url_in_cons. pose proof (attempt_outcome net url s) as O.
    destruct (attempt_frame net url s) as [Hq _].
    destruct (attempt net url s) as [[[|v]|e'] s1] eqn:E; cbn [fst snd] in O, Hq.
    + intros H.
      destruct (IH s1 s' h H)
        as (pre & u & rest' & r & b & hs & Hl & Hpre & Hu & Hr & Hc & Hh
            & Hd & Hreq & earlier & Hout).
      exists (url :: pre), u, rest', r, b, hs.
      refine (conj _ (conj _ (conj Hu (conj Hr (conj Hc (conj Hh
                (conj Hd (conj _ (ex_intro _ earlier Hout))))))))).
      * rewrite Hl. reflexivity.
      * intros w [<-|Hw]; [exact O | exact (Hpre w Hw)].
      * rewrite Hreq, Hq, <- app_assoc. reflexivity.
    + intros H. injection H as Hv Hs. subst v s1.
      destruct (attempt_Return _ _ _ _ _ E)
        as (r & b & hs & Hr & H200 & Hc & Hh & Hd).
      rewrite (attempt_wins_state net url s r b hs Hr H200 Hc Hh) in E.
      injection E as _ Hs'.
      exists nil, url, rest, r, b, hs.
      refine (conj eq_refl (conj _ (conj O (conj Hr (conj Hc (conj Hh
                (conj Hd (conj Hq _)))))))).
      * intros w [].
      * rewrite <- Hs', Hd. cbn [say stdout]. rewrite <- !app_assoc.
        eexists. reflexivity.
    + discriminate.
Qed.

(** X1. The digest printed is the digest returned: when a call returns a
    digest, the winning endpoint (the last one asked) answered 200, the
    value returned is the digest of its body, and the last four lines
    on the standard output are the success line, the byte count of that
    body, the content type among its headers (or [unknown]) and
    [SHA-256 Hash: ] followed by the returned value. *)
Theorem printed_digest_is_returned_digest
        (net : Network) (id : string) (s : State) (h : string) :
  fst (get_inscription_hash net id s) = Ok (Some h) ->
  exists earlier pre url rest r b hs,
    endpoints id = (pre ++ url :: rest)%list /\
    requests (snd (get_inscription_hash net id s))
      = (requests s ++ issued (pre ++ [url]))%list /\
    snd (net url 30) = Ok r /\ status_code r = 200 /\
    content r = Ok (Some b) /\ headers r = Ok hs /\
    h = SHA256.hexdigest b /\
    stdout (snd (get_inscription_hash net id s))
    = (earlier
         ++ [ (nl ++ "Success!")%string;
              ("Content length: "
                 ++ str_int (Z.of_nat (List.length b)) ++ " bytes")%string;
              ("Content type: "
                 ++ headers_get hs "content-type" "unknown")%string;
              ("SHA-256 Hash: " ++ h)%string ])%list.
Proof.
  rewrite get_inscription_hash_unfold.
  destruct (for_url_in net (endpoints id) s) as [[[v|]|e] s'] eqn:E;
    cbn [fst snd]; try discriminate.
  intros H. injection H as Hv. subst v.
  destruct (for_url_in_winner _ _ _ _ _ E)
    as (pre & url & rest & r & b & hs & Hl & _ & Hu & Hr & Hc & Hh & Hd & Hq
        & earlier & Hout).
  exists earlier, pre, url, rest, r, b, hs.
  refine (conj Hl (conj Hq (conj Hr (conj _ (conj Hc (conj Hh
            (conj Hd Hout))))))).
  unfold attempt_fails in Hu. rewrite Hr in Hu.
  apply orb_false_iff in Hu as [Hu _].
  apply negb_false_iff, Z.eqb_eq in Hu. exact Hu.
Qed.

Lemma printed_digest_is_returned_digest_witness :
  last (stdout (snd (get_inscription_hash net_third_wins inscription_id initial)))
       EmptyString
  = "SHA-256 Hash: d90106ba0c7d9f14011254c532818d6fadf524dfde8e271ddfb22bbdb4b5fb6c".
Proof.
  destruct (printed_digest_is_returned_digest net_third_wins inscription_id
              initial
              "d90106ba0c7d9f14011254c532818d6fadf524dfde8e271ddfb22bbdb4b5fb6c")
    as (earlier & pre & url & rest & r & b & hs & _ & _ & _ & _ & _ & _ & _
        & Hout).
  - vm_compute. reflexivity.
  - rewrite Hout.
    change (earlier ++ [?a; ?b; ?c; ?d])%list
      with (earlier ++ [a; b; c] ++ [d])%list.
    rewrite app_assoc. apply last_last.
Defined.

(** X2. First success wins: when a call returns a digest, every endpoint
    before the winning one was asked and failed, the winning endpoint is
    the last one asked, and no endpoint after it is asked. *)
Theorem winner_is_first_that_does_not_fail
        (net : Network) (id : string) (s : State) (h : string) :
  fst (get_inscription_hash net id s) = Ok (Some h) ->
  exists pre url rest,
    endpoints id = (pre ++ url :: rest)%list /\
    (forall u, In u pre -> attempt_fails net u = true) /\
    attempt_fails net url = false /\
    requests (snd (get_inscription_hash net id s))
      = (requests s ++ issued (pre ++ [url]))%list.
Proof.
  rewrite get_inscription_hash_unfold.
  destruct (for_url_in net (endpoints id) s) as [[[v|]|e] s'] eqn:E;
    cbn [fst snd]; try discriminate.
  intros H. injection H as Hv. subst v.
  destruct (for_url_in_winner _ _ _ _ _ E)
    as (pre & url & rest & r & b & hs & Hl & Hpre & Hu & _ & _ & _ & _ & Hq
        & _).
  exists pre, url, rest. exact (conj Hl (conj Hpre (conj Hu Hq))).
Qed.

Lemma winner_is_first_that_does_not_fail_witness :
  exists pre url rest,
    endpoints inscription_id = (pre ++ url :: rest)%list /\
    (forall u, In u pre -> attempt_fails net_third_wins u = true) /\
    attempt_fails net_third_wins url = false /\
    requests (snd (get_inscription_hash net_third_wins inscription_id initial))
      = (requests initial ++ issued (pre ++ [url]))%list.
Proof.
  apply (winner_is_first_that_does_not_fail net_third_wins inscription_id
           initial
           "d90106ba0c7d9f14011254c532818d6fadf524dfde8e271ddfb22bbdb4b5fb6c").
  vm_compute. reflexivity.
Defined.



(** X5. An exception outside [Exception] is not swallowed: if the
    endpoints before [url] fail and the GET of [url] raises such an
    exception, the call raises it at once; the endpoints after [url] are
    not asked, and the announcement of [url] is the last line printed,
    so no error line and no failure line follow. *)
Theorem non_Exception_aborts_the_call
        (net : Network) (id : string) (s : State)
        (pre rest : list string) (url : string) (e : exn) :
  endpoints id = (pre ++ url :: rest)%list ->
  (forall u, In u pre -> attempt_fails net u = true) ->
  snd (net url 30) = Raise e ->
  isinstance_Exception e = false ->
  fst (get_inscription_hash net id s) = Raise e /\
  requests (snd (get_inscription_hash net id s))
    = (requests s ++ issued (pre ++ [url]))%list /\
  last (stdout (snd (get_inscription_hash net id s))) EmptyString
    = "Trying: " ++ url.
Proof.
  intros Hl Hpre Hr He.
  rewrite get_inscription_hash_unfold, Hl.
  destruct (for_url_in_skip_failed net pre (url :: rest) Hpre s)
    as (s1 & -> & Hq).
  rewrite for_url_in_cons, attempt_unfold, Hr, He.
  cbn [fst snd tried sent say requests stdout].
  refine (conj eq_refl (conj _ _)).
  - rewrite Hq, issued_app, <- app_assoc. reflexivity.
  - apply last_last.
Qed.

Lemma non_Exception_aborts_the_call_witness :
  fst (get_inscription_hash net_interrupted inscription_id initial)
    = Raise (Exn KeyboardInterrupt EmptyString) /\
  requests (snd (get_inscription_hash net_interrupted inscription_id initial))
    = (requests initial
         ++ issued (firstn 1 (endpoints inscription_id)
                      ++ [nth 1 (endpoints inscription_id) EmptyString]))%list /\
  last (stdout (snd (get_inscription_hash net_interrupted inscription_id
                       initial)))
       EmptyString
    = "Trying: " ++ nth 1 (endpoints inscription_id) EmptyString.
Proof.
  apply (non_Exception_aborts_the_call net_interrupted inscription_id initial
           (firstn 1 (endpoints inscription_id))
           (skipn 2 (endpoints inscription_id))
           (nth 1 (endpoints inscription_id) EmptyString)
           (Exn KeyboardInterrupt EmptyString)).
  - reflexivity.
  - intros u H. cbn in H. destruct H as [<-|[]]. reflexivity.
  - reflexivity.
  - reflexivity.
Defined.

(** X6. Fallback reaches any endpoint of the list: if the endpoints
    before [url] fail and [url] answers 200 with a body and headers, the
    call returns the digest of that body, asks nothing after [url], and
    ends its output with the digest line. *)
Theorem fallback_reaches_any_endpoint
        (net : Network) (id : string) (s : State)
        (pre rest : list string) (url : string)
        (r : Response) (b : list byte) (hs : list (string * string)) :
  endpoints id = (pre ++ url :: rest)%list ->
  (forall u, In u pre -> attempt_fails net u = true) ->
  snd (net url 30) = Ok r -> status_code r = 200 ->
  content r = Ok (Some b) -> headers r = Ok hs ->
  fst (get_inscription_hash net id s) = Ok (Some (SHA256.hexdigest b)) /\
  requests (snd (get_inscription_hash net id s))
    = (requests s ++ issued (pre ++ [url]))%list /\
  last (stdout (snd (get_inscription_hash net id s))) EmptyString
    = "SHA-256 Hash: " ++ SHA256.hexdigest b.
Proof.
  intros Hl Hpre Hr H200 Hc Hh.
  rewrite get_inscription_hash_unfold, Hl.
  destruct (for_url_in_skip_failed net pre (url :: rest) Hpre s)
    as (s1 & -> & Hq).
  rewrite for_url_in_cons.
  rewrite (attempt_wins_state net url s1 r b hs Hr H200 Hc Hh).
  cbn [fst snd tried sent say requests stdout].
  refine (conj eq_refl (conj _ _)).
  - rewrite Hq, issued_app, <- app_assoc. reflexivity.
  - apply last_last.
Qed.

Lemma fallback_reaches_any_endpoint_witness :
  fst (get_inscription_hash net_third_wins inscription_id initial)
    = Ok (Some (SHA256.hexdigest [xff; xfe; x00; x80; xc3; x28]%list)) /\
  requests (snd (get_inscription_hash net_third_wins inscription_id initial))
    = (requests initial
         ++ issued (firstn 2 (endpoints inscription_id)
                      ++ [nth 2 (endpoints inscription_id) EmptyString]))%list /\
  last (stdout (snd (get_inscription_hash net_third_wins inscription_id
                       initial)))
       EmptyString
    = "SHA-256 Hash: "
        ++ SHA256.hexdigest [xff; xfe; x00; x80; xc3; x28]%list.
Proof.
  apply (fallback_reaches_any_endpoint net_third_wins inscription_id initial
           (firstn 2 (endpoints inscription_id)) nil
           (nth 2 (endpoints inscription_id) EmptyString)
           image_response [xff; xfe; x00; x80; xc3; x28]%list
           [("content-type", "image/png")]%list).
  - reflexivity.
  - intros u H. cbn in H. destruct H as [<-|[<-|[]]]; reflexivity.
  - reflexivity.
  - reflexivity.
  - reflexivity.
  - reflexivity.
Defined.

(** The loop only adds to the output, and announces what it asks. *)
Lemma for_url_in_announces (net : Network) (urls : list string) :
  forall s, exists k new,
    requests (snd (for_url_in net urls s))
      = (requests s ++ issued (firstn k urls))%list /\
    stdout (snd (for_url_in net urls s)) = (stdout s ++ new)%list /\
    forall u, In u (firstn k urls) -> In ("Trying: " ++ u) new.
Proof.
  induction urls as [|url rest IH]; intros s.
  - exists 0%nat, nil. cbn. rewrite !app_nil_r.
    refine (conj eq_refl (conj eq_refl _)). intros u [].
  - rewrite for_url_in_cons.
    destruct (attempt_frame net url s) as [Hq _].
    destruct (attempt_stdout net url s) as (new0 & Ho).
    destruct (attempt net url s) as [[[|h]|e] s1]; cbn [snd] in *.
    + destruct (IH s1) as (k & new & Hq' & Ho' & Hin).
      exists (S k), (("Trying: " ++ url)%string :: new0 ++ new)%list.
      cbn [firstn issued map]. fold (issued (firstn k rest)).
      refine (conj _ (conj _ _)).
      * rewrite Hq', Hq, <- app_assoc. reflexivity.
      * rewrite Ho', Ho, <- app_assoc. reflexivity.
      * intros u [<-|Hu]; [left; reflexivity|].
        right. apply in_or_app. right. exact (Hin u Hu).
    + exists 1%nat, (("Trying: " ++ url)%string :: new0)%list.
      refine (conj Hq (conj Ho _)).
      intros u [<-|[]]. left; reflexivity.
    + exists 1%nat, (("Trying: " ++ url)%string :: new0)%list.
      refine (conj Hq (conj Ho _)).
      intros u [<-|[]]. left; reflexivity.
Qed.

(** X7. Every request is announced and nothing printed earlier is lost:
    a call leaves the earlier output in place, and for each endpoint it
    asked, the line [Trying: ] followed by the url is among the lines it
    added. *)
Theorem every_request_is_announced
        (net : Network) (id : string) (s : State) :
  exists k new,
    requests (snd (get_inscription_hash net id s))
      = (requests s ++ issued (firstn k (endpoints id)))%list /\
    stdout (snd (get_inscription_hash net id s)) = (stdout s ++ new)%list /\
    forall url, In url (firstn k (endpoints id)) ->
                In ("Trying: " ++ url) new.
Proof.
  destruct (for_url_in_announces net (endpoints id) s)
    as (k & new & Hq & Ho & Hin).
  rewrite get_inscription_hash_unfold.
  destruct (for_url_in net (endpoints id) s) as [[[h|]|e] s1];
    cbn [snd] in *.
  - exists k, new. exact (conj Hq (conj Ho Hin)).
  - exists k,
      (new ++ [(nl ++ "Failed to retrieve content from all endpoints.")%string]
      )%list.
    cbn [say requests stdout].
    refine (conj Hq (conj _ _)).
    + rewrite Ho, <- app_assoc. reflexivity.
    + intros url Hu. apply in_or_app. left. exact (Hin url Hu).
  - exists k, new. exact (conj Hq (conj Ho Hin)).
Qed.

Lemma find_all_false {A} (f : A -> bool) (l : list A) :
  (forall x, In x l -> f x = false) -> find f l = None.
Proof.
  induction l as [|a l IH]; intros H; [reflexivity|].
  cbn [find]. rewrite (H a (or_introl eq_refl)).
  apply IH. intros x Hx. apply H. right. exact Hx.
Qed.

(** X9. The content type line falls back to [unknown]: when the winning
    response has no header whose name is [content-type] in any letter
    case, the attempt prints [Content type: unknown]; when its first
    header is one, in whatever letter case, it prints that header's
    value. *)
Theorem content_type_defaults_to_unknown
        (net : Network) (url : string) (s : State) (r : Response)
        (b : list byte) (hs : list (string * string)) :
  snd (net url 30) = Ok r -> status_code r = 200 ->
  content r = Ok (Some b) -> headers r = Ok hs ->
  ((forall name value, In (name, value) hs -> lower name <> "content-type") ->
   In "Content type: unknown" (stdout (snd (attempt net url s)))) /\
  (forall name value others,
      hs = ((name, value) :: others)%list -> lower name = "content-type" ->
      In ("Content type: " ++ value) (stdout (snd (attempt net url s)))).
Proof.
  intros Hr H200 Hc Hh.
  rewrite (attempt_wins_state net url s r b hs Hr H200 Hc Hh).
  cbn [snd say stdout]. split.
  - intros Hno.
    assert (F : headers_get hs "content-type" "unknown" = "unknown").
    { unfold headers_get. rewrite find_all_false; [reflexivity|].
      intros [name value] Hin. cbn [fst].
      apply String.eqb_neq. exact (Hno name value Hin). }
    rewrite F. apply in_or_app. left. apply in_or_app. right.
    left. reflexivity.
  - intros name value others -> Hname.
    assert (F : headers_get ((name, value) :: others) "content-type" "unknown"
                = value).
    { unfold headers_get. cbn [find fst]. rewrite Hname. reflexivity. }
    rewrite F. apply in_or_app. left. apply in_or_app. right.
    left. reflexivity.
Qed.

Lemma content_type_defaults_to_unknown_witness :
  In "Content type: unknown"
     (stdout (snd (attempt net_bare
                     (nth 0 (endpoints inscription_id) EmptyString) initial))).
Proof.
  refine (proj1 (content_type_defaults_to_unknown net_bare
                   (nth 0 (endpoints inscription_id) EmptyString) initial
                   (status_response 200) nil nil _ _ _ _) _).
  - reflexivity.
  - reflexivity.
  - reflexivity.
  - reflexivity.
  - intros name value [].
Defined.
